(** * A shallow embedding of [version_5_a2a_sdk/client/client.py]

    The interactive A2A client: [build_message], [print_json_response],
    [handle_message] (submit-and-drain) and [interactive_loop].

    Effects are threaded through a small state-and-exception monad [M]:
    - the operator's keyboard is the list [inputs] of lines still to be typed
      ([input()] pops one, or raises [EOFError] when there is none);
    - [uuid4().hex] reads a value from an oracle indexed by a counter;
    - the collaborator [client.send_message] is an oracle from the index of
      the submission and the message to the response sequence it yields;
    - everything printed (by [print], [rich.print], the [input] prompt) and
      every submission is appended to the trace [out].
    The recursion of [handle_message] on "input-required" is bounded by a
    fuel argument; running out of fuel is the outcome [NoFuel], which is
    not a Python exception and is caught by no handler. *)

From Stdlib Require Import String Ascii List Bool Arith Lia.
Import ListNotations.
Open Scope string_scope.
Open Scope list_scope.

(** ** Python exceptions that can reach the code *)

Inductive exn :=
| RuntimeError (msg : string)
| EOFError
| OtherError (name msg : string).

(** [str(e)] *)
Definition exn_str (e : exn) : string :=
  match e with
  | RuntimeError m => m
  | EOFError => ""
  | OtherError _ m => m
  end.

(** ** A2A SDK types used by the client *)

Inductive Role := user | agent.

(** [a2a.types.TaskState] *)
Inductive TaskState :=
| submitted | working | input_required | completed | canceled | failed
| rejected | auth_required | unknown.

Scheme Equality for TaskState.

(** The fields of [a2a.types.Task] the client reads:
    [task.id], [task.context_id] and [task.status.state]. *)
Record Task := mkTask {
  task_id : string;
  task_context_id : string;
  task_status_state : TaskState
}.

(** Update events and agent replies are only rendered by the client. *)
Definition Update := string.
Definition AgentMessage := string.

(** [Part(kind="text", text=...)] *)
Record Part := mkPart { part_kind : string; part_text : string }.

(** [a2a.types.Message] as built by [build_message]. *)
Record Message := mkMessage {
  role : Role;
  parts : list Part;
  messageId : string;
  taskId : option string;
  contextId : option string
}.

(** An item yielded by [client.send_message]: a [(Task, Update)] tuple or a
    (non-tuple) [Message] reply. *)
Inductive Item :=
| ItemTaskUpdate (t : Task) (u : Update)
| ItemMessage (m : AgentMessage).

(** The response sequence: the items it yields, then how iteration ends:
    [None] is the normal end, [Some e] an exception raised by the next
    [__anext__]. *)
Record ResponseStream := mkStream {
  rs_items : list Item;
  rs_end : option exn
}.

(** Values handed to [print_json_response]: the dict
    [{"task": task_dict, "update": update_dict}] built by [handle_message],
    an SDK [Message] reply, or any other Python value, given by what the
    formatting steps of the [try] block (model_dump / [json.dumps] /
    [Syntax]) do with it, raising or giving the JSON text, and by its
    [repr]. *)
Inductive Payload :=
| PDict (task_dict update_dict : string)
| PObj (m : AgentMessage)
| PValue (dump : exn + string) (repr : string).

(** ** The outside world *)

Record World := mkWorld {
  (** [uuid4().hex] at its n-th call *)
  uuid4_hex : nat -> string;
  (** [client.send_message(message)] at the n-th submission *)
  send_message_resp : nat -> Message -> ResponseStream;
  (** [task.model_dump(...)], [update.model_dump(...)] *)
  model_dump_pair : Task -> Update -> exn + (string * string);
  (** the formatting steps of [print_json_response] on the dict of JSON-mode
      dumps and on an SDK [Message]: both always serialize *)
  format_json : Payload -> string;
  (** [repr(response)] of those *)
  py_repr : Payload -> string;
  (** rich's [Style.normalize] (through [Style.parse]) *)
  style_normalize : string -> string;
  (** rich's parsing of the parameters of a closed [@] (meta) tag:
      [Some msg] when [literal_eval] fails and [MarkupError(msg)] is raised *)
  meta_parse : string -> option string
}.

(** ** Program state and trace *)

Inductive Event :=
| EvStdout (s : string)          (* print(...) *)
| EvRich (s : string)            (* rich.print(...) *)
| EvPrompt (p : string)          (* the prompt of input(...) *)
| EvSend (m : Message)           (* client.send_message(m) *)
| EvTraceback (e : exn).         (* traceback.print_exc() on stderr *)

Record St := mkSt {
  inputs : list string;
  uuid_ctr : nat;
  sent : nat;
  out : list Event
}.

Definition emit (e : Event) (s : St) : St :=
  mkSt (inputs s) (uuid_ctr s) (sent s) (out s ++ [e]).

(** ** The monad *)

Inductive res (A : Type) :=
| Ok (a : A)
| Raise (e : exn)
| NoFuel.
Arguments Ok {A} a.
Arguments Raise {A} e.
Arguments NoFuel {A}.

Definition M (A : Type) := St -> res A * St.

Definition ret {A} (a : A) : M A := fun s => (Ok a, s).
Definition raise {A} (e : exn) : M A := fun s => (Raise e, s).

Definition bind {A B} (m : M A) (k : A -> M B) : M B :=
  fun s =>
    match m s with
    | (Ok a, s') => k a s'
    | (Raise e, s') => (Raise e, s')
    | (NoFuel, s') => (NoFuel, s')
    end.

Notation "x <- m ;; k" := (bind m (fun x => k))
  (at level 61, m at next level, right associativity).
Notation "m ;;; k" := (bind m (fun _ => k))
  (at level 61, right associativity).

(** [try: m  except Exception as e: h e] *)
Definition try_except (m : M unit) (h : exn -> M unit) : M unit :=
  fun s =>
    match m s with
    | (Raise e, s') => h e s'
    | r => r
    end.

Definition print (x : string) : M unit := fun s => (Ok tt, emit (EvStdout x) s).
(** [rich.print] of a renderable that is not a [str] (a [Syntax]): no
    markup is parsed. *)
Definition rprint_renderable (x : string) : M unit :=
  fun s => (Ok tt, emit (EvRich x) s).

(** [input(prompt)] *)
Definition input (p : string) : M string :=
  fun s =>
    let s1 := emit (EvPrompt p) s in
    match inputs s with
    | [] => (Raise EOFError, s1)
    | l :: rest => (Ok l, mkSt rest (uuid_ctr s1) (sent s1) (out s1))
    end.

(** ** String helpers: Python's [str.lower], [str.strip] and [in] *)

(** Characters are read as the first 256 code points (Latin-1). *)
Definition char_lower (c : ascii) : ascii :=
  let n := nat_of_ascii c in
  if (Nat.leb 65 n && Nat.leb n 90)
     || (Nat.leb 192 n && Nat.leb n 222 && negb (Nat.eqb n 215))
  then ascii_of_nat (n + 32) else c.

Fixpoint py_lower (s : string) : string :=
  match s with
  | EmptyString => EmptyString
  | String c r => String (char_lower c) (py_lower r)
  end.

(** [str.isspace] on the first 256 code points. *)
Definition is_space (c : ascii) : bool :=
  let n := nat_of_ascii c in
  (Nat.leb 9 n && Nat.leb n 13) || (Nat.leb 28 n && Nat.leb n 32)
  || Nat.eqb n 133 || Nat.eqb n 160.

Fixpoint drop_spaces (l : list ascii) : list ascii :=
  match l with
  | [] => []
  | c :: r => if is_space c then drop_spaces r else l
  end.

Definition py_strip (s : string) : string :=
  string_of_list_ascii
    (rev (drop_spaces (rev (drop_spaces (list_ascii_of_string s))))).

Fixpoint starts_with (p s : string) : bool :=
  match p, s with
  | EmptyString, _ => true
  | String a p', String b s' => Ascii.eqb a b && starts_with p' s'
  | String _ _, EmptyString => false
  end.

(** [needle in haystack] *)
Fixpoint str_contains (needle hay : string) : bool :=
  starts_with needle hay ||
  match hay with
  | EmptyString => false
  | String _ r => str_contains needle r
  end.

(** Python truthiness of a [str | None]. *)
Definition py_truthy (o : option string) : bool :=
  match o with
  | None => false
  | Some x => negb (String.eqb x "")
  end.

(** [str(n)] for a natural number. *)
Fixpoint nat_str_aux (fuel n : nat) (acc : string) : string :=
  match fuel with
  | O => acc
  | S f =>
      let acc' := String (ascii_of_nat (48 + n mod 10)) acc in
      if Nat.ltb n 10 then acc' else nat_str_aux f (n / 10) acc'
  end.

Definition nat_str (n : nat) : string := nat_str_aux (S n) n "".

(** ** rich's console markup ([rich.markup]) *)

(** The leading backslashes of the text: the first group of [RE_TAGS]. *)
Fixpoint count_backslashes (l : list ascii) : nat * list ascii :=
  match l with
  | c :: r =>
      if Ascii.eqb c "\"%char then
        let (k, r') := count_backslashes r in (S k, r')
      else (0, l)
  | [] => (0, [])
  end.

(** [[a-z#/@]] *)
Definition tag_start_char (c : ascii) : bool :=
  let n := nat_of_ascii c in
  (Nat.leb 97 n && Nat.leb n 122) || Nat.eqb n 35 || Nat.eqb n 47 || Nat.eqb n 64.

(** [[^[]*?]]: the characters up to the first []], failing at a [[] or at
    the end. *)
Fixpoint tag_body (l : list ascii) : option (list ascii * list ascii) :=
  match l with
  | [] => None
  | c :: r =>
      if Ascii.eqb c "]"%char then Some ([], r)
      else if Ascii.eqb c "["%char then None
      else match tag_body r with
           | Some (b, rest) => Some (c :: b, rest)
           | None => None
           end
  end.

(** A match of [RE_TAGS] at the start of the text (any backslashes, then
    an opening bracket, a character of [a-z#/@], the shortest run without
    an opening bracket, and a closing bracket): the number of backslashes,
    the tag text, and what follows. *)
Definition match_tag (l : list ascii) : option (nat * list ascii * list ascii) :=
  let (k, r) := count_backslashes l in
  match r with
  | b :: c :: r' =>
      if Ascii.eqb b "["%char && tag_start_char c then
        match tag_body r' with
        | Some (body, rest) => Some (k, c :: body, rest)
        | None => None
        end
      else None
  | _ => None
  end.

(** The tags yielded by [rich.markup._parse] with their positions; tags
    escaped by an odd number of backslashes are plain text.  Each step
    consumes at least one character, so [S (length l)] is enough fuel.
    Positions count the characters of the modelled string, which are
    Python's code points for ASCII text. *)
Fixpoint find_tags (fuel : nat) (l : list ascii) (position : nat)
  : list (nat * list ascii) :=
  match fuel with
  | O => []
  | S f =>
      match l with
      | [] => []
      | _ :: l' =>
          match match_tag l with
          | Some (k, tag_text, rest) =>
              let next := position + k + 2 + length tag_text in
              if Nat.odd k then find_tags f rest next
              else (position + k, tag_text) :: find_tags f rest next
          | None => find_tags f l' (S position)
          end
      end
  end.

(** [tag_text.partition("=")]: the name and the parameters, if any. *)
Fixpoint partition_eq (l : list ascii) : list ascii * option (list ascii) :=
  match l with
  | [] => ([], None)
  | c :: r =>
      if Ascii.eqb c "="%char then ([], Some r)
      else let (n, p) := partition_eq r in (c :: n, p)
  end.

(** [Tag.markup] *)
Definition tag_markup (name : string) (params : option string) : string :=
  match params with
  | None => "[" ++ name ++ "]"
  | Some p => "[" ++ name ++ "=" ++ p ++ "]"
  end.

(** [pop_style]: remove the topmost open tag with the given (normalized)
    name; [None] is the [KeyError]. *)
Fixpoint pop_style (name : string) (stack : list (string * option string))
  : option ((string * option string) * list (string * option string)) :=
  match stack with
  | [] => None
  | (n, p) :: r =>
      if String.eqb n name then Some ((n, p), r)
      else match pop_style name r with
           | Some (t, r') => Some (t, (n, p) :: r')
           | None => None
           end
  end.

Definition MarkupError (msg : string) : exn := OtherError "MarkupError" msg.

Section Client.

Variable w : World.

(** After a tag is closed: a meta tag ([@...]) with parameters has them
    parsed, which can raise. *)
Definition close_check (open_tag : string * option string) : option exn :=
  let (name, params) := open_tag in
  if starts_with "@" name then
    match params with
    | Some p =>
        if String.eqb p "" then None
        else match meta_parse w p with
             | Some msg => Some (MarkupError msg)
             | None => None
             end
    | None => None
    end
  else None.

(** The tag handling of [rich.markup.render]: the style stack and the
    [MarkupError]s; [None] when rendering succeeds. *)
Fixpoint render_tags (tags : list (nat * list ascii))
    (stack : list (string * option string)) : option exn :=
  match tags with
  | [] => None
  | (position, tag_text) :: rest =>
      let (name_l, params_l) := partition_eq tag_text in
      let name := string_of_list_ascii name_l in
      let params := option_map string_of_list_ascii params_l in
      match name_l with
      | "/"%char :: style_l =>
          let style_name := py_strip (string_of_list_ascii style_l) in
          if String.eqb style_name "" then
            match stack with
            | [] => Some (MarkupError ("closing tag '[/]' at position " ++
                                       nat_str position ++ " has nothing to close"))
            | top :: stack' =>
                match close_check top with
                | Some e => Some e
                | None => render_tags rest stack'
                end
            end
          else
            match pop_style (style_normalize w style_name) stack with
            | None => Some (MarkupError ("closing tag '" ++ tag_markup name params ++
                                         "' at position " ++ nat_str position ++
                                         " doesn't match any open tag"))
            | Some (top, stack') =>
                match close_check top with
                | Some e => Some e
                | None => render_tags rest stack'
                end
            end
      | _ => render_tags rest ((style_normalize w name, params) :: stack)
      end
  end.

(** The exception [rich.print] raises while parsing the markup of a [str]. *)
Definition markup_error (x : string) : option exn :=
  let l := list_ascii_of_string x in
  render_tags (find_tags (S (length l)) l 0) [].

(** [rich.print(x)] for a [str] [x]: the markup is parsed first, and a
    [MarkupError] is raised before anything is printed. *)
Definition rprint (x : string) : M unit :=
  fun s =>
    match markup_error x with
    | Some e => (Raise e, s)
    | None => (Ok tt, emit (EvRich x) s)
    end.

(** What the [try] block of [print_json_response] does with a payload. *)
Definition payload_dump (p : Payload) : exn + string :=
  match p with
  | PValue dump _ => dump
  | _ => inr (format_json w p)
  end.

(** [repr(response)] *)
Definition payload_repr (p : Payload) : string :=
  match p with
  | PValue _ r => r
  | _ => py_repr w p
  end.

(** [uuid4().hex] *)
Definition uuid4 : M string :=
  fun s => (Ok (uuid4_hex w (uuid_ctr s)),
            mkSt (inputs s) (S (uuid_ctr s)) (sent s) (out s)).

(** [build_message] (client.py lines 41-49). *)
Definition build_message (text : string) (task_id context_id : option string)
  : M Message :=
  mid <- uuid4 ;;
  ret (mkMessage user [mkPart "text" text] mid
         (if py_truthy task_id then task_id else None)
         (if py_truthy context_id then context_id else None)).

(** [print_json_response] (client.py lines 54-73). *)
Definition print_json_response (response : Payload) (title : string) : M unit :=
  print ("
=== " ++ title ++ " ===") ;;;
  try_except
    (match payload_dump response with
     | inl e => raise e
     | inr syntax => rprint_renderable syntax
     end)
    (fun e =>
       rprint ("[red bold]Error printing JSON:[/red bold] " ++ exn_str e) ;;;
       rprint (payload_repr response)).

(** [client.send_message(message)]: the submission. *)
Definition send_message (message : Message) : M ResponseStream :=
  fun s =>
    (Ok (send_message_resp w (sent s) message),
     mkSt (inputs s) (uuid_ctr s) (S (sent s)) (out s ++ [EvSend message])).

Definition input_prompt : string := "🟡 Agent needs more input. Your reply: ".
Definition no_response_msg : string := "⚠️  No response received from agent".
Definition disconnect_msg : string :=
  "⚠️  Agent connection ended unexpectedly. Please check if the agent is running correctly.".

(** The processing of one item in the [async for] loop (lines 87-101);
    [hm] is the recursive call [await handle_message(client, ...)]. *)
Definition process_item
    (hm : string -> option string -> option string -> M unit) (item : Item)
  : M unit :=
  match item with
  | ItemTaskUpdate task update =>
      d <- (match model_dump_pair w task update with
            | inl e => raise e
            | inr d => ret d
            end) ;;
      print_json_response (PDict (fst d) (snd d)) "Streaming Update" ;;;
      if TaskState_beq (task_status_state task) input_required then
        follow_up <- input input_prompt ;;
        hm follow_up (Some (task_id task)) (Some (task_context_id task))
      else ret tt
  | ItemMessage m => print_json_response (PObj m) "Agent Reply"
  end.

(** The [async for] loop over the yielded items, counting them
    ([response_count += 1]); returns the final count. *)
Fixpoint drain (hm : string -> option string -> option string -> M unit)
    (items : list Item) (response_count : nat) : M nat :=
  match items with
  | [] => ret response_count
  | item :: rest =>
      process_item hm item ;;;
      drain hm rest (S response_count)
  end.

(** How iteration stops after the last item. *)
Definition stream_end (e : option exn) : M unit :=
  match e with
  | None => ret tt
  | Some e => raise e
  end.

(** The body of the [try] in [handle_message] (lines 84-104). *)
Definition try_body (hm : string -> option string -> option string -> M unit)
    (message : Message) : M unit :=
  strm <- send_message message ;;
  response_count <- drain hm (rs_items strm) 0 ;;
  stream_end (rs_end strm) ;;;
  if Nat.eqb response_count 0 then print no_response_msg else ret tt.

(** [isinstance(e, RuntimeError) and "StopAsyncIteration" in str(e)] *)
Definition is_stop_async_iteration (e : exn) : bool :=
  match e with
  | RuntimeError m => str_contains "StopAsyncIteration" m
  | _ => false
  end.

(** The [except RuntimeError as e] handler (lines 106-110). *)
Definition catch_disconnect (m : M unit) : M unit :=
  fun s =>
    match m s with
    | (Raise e, s') =>
        if is_stop_async_iteration e then print disconnect_msg s'
        else (Raise e, s')
    | r => r
    end.

(** [handle_message] (lines 78-110), submit-and-drain. *)
Fixpoint handle_message (fuel : nat) (text : string)
    (task_id context_id : option string) : M unit :=
  match fuel with
  | O => fun s => (NoFuel, s)
  | S f =>
      message <- build_message text task_id context_id ;;
      catch_disconnect (try_body (handle_message f) message)
  end.

Definition query_prompt : string := "
🟢 Your query: ".

(** [query.lower() in {"exit", "quit"}] *)
Definition is_exit (query : string) : bool :=
  String.eqb (py_lower query) "exit" || String.eqb (py_lower query) "quit".

(** [interactive_loop] (lines 115-123); one unit of fuel per iteration, and
    [handle_message] gets the same fuel. *)
Fixpoint interactive_loop_iter (fuel : nat) : M unit :=
  match fuel with
  | O => fun s => (NoFuel, s)
  | S f =>
      raw <- input query_prompt ;;
      let query := py_strip raw in
      if is_exit query then print "👋 Exiting..."
      else
        handle_message fuel query None None ;;;
        interactive_loop_iter f
  end.

Definition interactive_loop (fuel : nat) : M unit :=
  print "
Enter your query below. Type 'exit' to quit." ;;;
  interactive_loop_iter fuel.

End Client.

(** ** The entry points: [run_main] (client.py) and [simple_test]
    (test_simple.py) *)

(** [await ClientFactory.connect(url)]: [Some e] when it raises [e]; on
    success the connected client is the world's collaborator. *)
Definition connect_client (connect_error : option exn) : M unit :=
  match connect_error with
  | None => ret tt
  | Some e => raise e
  end.

Definition traceback_print_exc (e : exn) : M unit :=
  fun s => (Ok tt, emit (EvTraceback e) s).

Definition failed_msg : string :=
  "❌ Failed to connect or run. Ensure the agent is live and reachable.".

Section Entry.

Variable w : World.

(** [run_main] (client.py lines 136-147); the loop gets [fuel]. *)
Definition run_main (connect_error : option exn) (agent_url : string) (fuel : nat)
  : M unit :=
  print ("Connecting to agent at " ++ agent_url ++ "...") ;;;
  try_except
    (connect_client connect_error ;;;
     rprint w ("[green bold]✅ Connected to " ++ agent_url) ;;;
     interactive_loop w fuel)
    (fun e => traceback_print_exc e ;;; print failed_msg).

(** The [try] block of [simple_test] (test_simple.py lines 15-29);
    [item_type] and [item_str] are [type(item)] and [str(item)] as
    formatted by the f-strings; the [break] leaves the rest unread. *)
Definition simple_test_body (connect_error : option exn)
    (item_type item_str : Item -> string) : M unit :=
  connect_client connect_error ;;;
     print "Creating message..." ;;;
     mid <- uuid4 w ;;
     let message := mkMessage user [mkPart "text" "What time is it?"] mid None None in
     print "Sending message..." ;;;
     strm <- send_message w message ;;
     match rs_items strm with
     | [] => stream_end (rs_end strm)
     | item :: _ =>
         print ("Received item type: " ++ item_type item) ;;;
         print ("Received item: " ++ item_str item)
     end.

(** [simple_test] (test_simple.py lines 12-33). *)
Definition simple_test (connect_error : option exn) (item_type item_str : Item -> string)
  : M unit :=
  print "Connecting to agent..." ;;;
  try_except (simple_test_body connect_error item_type item_str)
    (fun e => print ("Error: " ++ exn_str e) ;;; traceback_print_exc e).

End Entry.

(** ** Trace bookkeeping *)

Fixpoint count_sends (l : list Event) : nat :=
  match l with
  | [] => 0
  | EvSend _ :: r => S (count_sends r)
  | _ :: r => count_sends r
  end.

Fixpoint count_prompts (l : list Event) : nat :=
  match l with
  | [] => 0
  | EvPrompt _ :: r => S (count_prompts r)
  | _ :: r => count_prompts r
  end.

(** [s'] follows [s]: the trace only grew, by [new]; the lines read are a
    prefix [consumed] of the pending ones, no more than the prompts shown;
    and the submissions made equal the [uuid4()] values drawn. *)
Definition steps (s s' : St) : Prop :=
  exists new consumed,
    out s' = out s ++ new /\
    inputs s = consumed ++ inputs s' /\
    sent s' = sent s + count_sends new /\
    uuid_ctr s' = uuid_ctr s + count_sends new /\
    length consumed <= count_prompts new.

(** A computation that, whatever its outcome, ends in a state following the
    one it started from. *)
Definition good {A} (m : M A) : Prop :=
  forall s r s', m s = (r, s') -> steps s s'.

(** ** A concrete world: the scenarios of the spec's section 8 *)

Definition t1_waiting : Task := mkTask "t1" "c1" input_required.
Definition t1_done : Task := mkTask "t1" "c1" completed.

Definition scenario_world : World :=
  mkWorld
    (fun n => match n with O => "uuid0" | _ => "uuid1" end)
    (fun n _ =>
       match n with
       | O => mkStream [ItemTaskUpdate t1_waiting "working"] None
       | _ => mkStream [ItemTaskUpdate t1_done "done"] None
       end)
    (fun t u => inr (task_id t, u))
    (fun p => "json")
    (fun p => "repr")
    (fun x => py_lower (py_strip x)) (fun _ => None).

Definition st0 (lines : list string) : St := mkSt lines 0 0 [].

(** The final state of a whole session in [scenario_world]. *)
Definition scenario_session_end : St :=
  Eval vm_compute in
    snd (run_main scenario_world None "http://localhost:10000" 4
           (st0 ["Hi"; "continue"; "exit"])).

(** A world whose collaborator ends the first response sequence with the
    SDK's "StopAsyncIteration" runtime error, and later ones normally. *)
Definition disconnect_world : World :=
  mkWorld
    (fun _ => "uuid")
    (fun n _ =>
       match n with
       | O => mkStream [] (Some (RuntimeError "async generator raised StopAsyncIteration"))
       | _ => mkStream [ItemMessage "It is noon."] None
       end)
    (fun t u => inr (task_id t, u))
    (fun p => "json")
    (fun p => "repr")
    (fun x => py_lower (py_strip x)) (fun _ => None).

(** ** Lemmas about the building blocks *)

(** The line [print_json_response] writes after its title for a payload
    that serializes. *)
Definition pjr_events (w : World) (p : Payload) : list Event :=
  [EvRich (format_json w p)].

Lemma print_json_response_eq (w : World) (p : Payload) (title : string) (s : St) :
  payload_dump w p = inr (format_json w p) ->
  print_json_response w p title s =
  (Ok tt, mkSt (inputs s) (uuid_ctr s) (sent s)
             (out s ++ EvStdout ("
=== " ++ title ++ " ===") :: pjr_events w p)).
Proof.
  intros Hd.
  unfold print_json_response, pjr_events, try_except, bind, print, emit, raise.
  rewrite Hd. unfold rprint_renderable, emit. simpl.
  rewrite <- !app_assoc; reflexivity.
Qed.

Lemma rprint_ok (w : World) (x : string) (s : St) :
  markup_error w x = None -> rprint w x s = (Ok tt, emit (EvRich x) s).
Proof. intros H. unfold rprint. rewrite H. reflexivity. Qed.

Lemma rprint_no_markup (w : World) (x : string) :
  markup_error w x = None -> rprint w x = rprint_renderable x.
Proof. intros H. unfold rprint, rprint_renderable. rewrite H. reflexivity. Qed.

Definition built_message (w : World) (text : string) (task_id context_id : option string)
    (s : St) : Message :=
  mkMessage user [mkPart "text" text] (uuid4_hex w (uuid_ctr s))
    (if py_truthy task_id then task_id else None)
    (if py_truthy context_id then context_id else None).

Lemma build_message_eq (w : World) text tid cid (s : St) :
  build_message w text tid cid s =
  (Ok (built_message w text tid cid s),
   mkSt (inputs s) (S (uuid_ctr s)) (sent s) (out s)).
Proof. reflexivity. Qed.

Lemma handle_message_S (w : World) f text tid cid (s : St) :
  handle_message w (S f) text tid cid s =
  catch_disconnect (try_body w (handle_message w f) (built_message w text tid cid s))
    (mkSt (inputs s) (S (uuid_ctr s)) (sent s) (out s)).
Proof. reflexivity. Qed.

(** [str.lower] maps whitespace to whitespace and nothing else to it. *)
Lemma is_space_char_lower (c : ascii) : is_space (char_lower c) = is_space c.
Proof.
  destruct c as [[] [] [] [] [] [] [] []]; reflexivity.
Qed.

Lemma drop_spaces_map_lower (l : list ascii) :
  drop_spaces (map char_lower l) = map char_lower (drop_spaces l).
Proof.
  induction l as [|c r IH]; simpl; [reflexivity|].
  rewrite is_space_char_lower. destruct (is_space c); [exact IH|reflexivity].
Qed.

Lemma list_ascii_of_string_lower (s : string) :
  list_ascii_of_string (py_lower s) = map char_lower (list_ascii_of_string s).
Proof. induction s; simpl; congruence. Qed.

Lemma string_of_list_ascii_map_lower (l : list ascii) :
  string_of_list_ascii (map char_lower l) = py_lower (string_of_list_ascii l).
Proof. induction l; simpl; congruence. Qed.

(** Lowering and stripping commute. *)
Lemma py_lower_strip (s : string) : py_lower (py_strip s) = py_strip (py_lower s).
Proof.
  unfold py_strip.
  rewrite list_ascii_of_string_lower, drop_spaces_map_lower, <- map_rev,
    drop_spaces_map_lower, <- map_rev, string_of_list_ascii_map_lower.
  reflexivity.
Qed.

Lemma is_exit_strip (l : string) :
  (py_lower l = "exit" \/ py_lower l = "quit") -> is_exit (py_strip l) = true.
Proof.
  unfold is_exit. rewrite py_lower_strip.
  intros [H|H]; rewrite H; reflexivity.
Qed.

(** ** Claims *)

(** C1: when an item is a [(Task, Update)] pair whose task state is
    "input-required", the drain renders it, prompts the operator for exactly
    one line, makes exactly one recursive [handle_message] call with that
    line and the task's id and context id, and only once that nested call
    has returned normally goes on with the remaining items. *)
Theorem drain_input_required_single_nested_call
    (w : World) (f : nat) (t : Task) (u : Update) (rest : list Item)
    (count : nat) (s : St) (d : string * string) (line : string)
    (more : list string) :
  task_status_state t = input_required ->
  model_dump_pair w t u = inr d ->
  inputs s = line :: more ->
  drain w (handle_message w f) (ItemTaskUpdate t u :: rest) count s =
  bind (handle_message w f line (Some (task_id t)) (Some (task_context_id t)))
       (fun _ => drain w (handle_message w f) rest (S count))
       (mkSt more (uuid_ctr s) (sent s)
          (out s ++ EvStdout "
=== Streaming Update ===" :: pjr_events w (PDict (fst d) (snd d))
                 ++ [EvPrompt input_prompt])).
Proof.
  intros Hstate Hdump Hin.
  simpl. unfold process_item, bind at 1 2. rewrite Hdump. simpl.
  unfold bind at 1. rewrite print_json_response_eq by reflexivity. rewrite Hstate. simpl.
  unfold bind at 1, input, emit. simpl. rewrite Hin. simpl.
  rewrite <- app_assoc. reflexivity.
Qed.

Lemma drain_input_required_single_nested_call_witness :
  task_status_state t1_waiting = input_required /\
  model_dump_pair scenario_world t1_waiting "working" = inr ("t1", "working") /\
  inputs (mkSt ["continue"] 0 1 []) = "continue" :: [] /\
  drain scenario_world (handle_message scenario_world 3)
    [ItemTaskUpdate t1_waiting "working"] 0 (st0 ["continue"]) =
  bind (handle_message scenario_world 3 "continue" (Some "t1") (Some "c1"))
       (fun _ => drain scenario_world (handle_message scenario_world 3) [] 1)
       (mkSt [] 0 0
          (EvStdout "
=== Streaming Update ===" :: pjr_events scenario_world (PDict "t1" "working")
                 ++ [EvPrompt input_prompt])).
Proof.
  split; [reflexivity|]. split; [reflexivity|]. split; [reflexivity|].
  exact (drain_input_required_single_nested_call scenario_world 3 t1_waiting "working"
           [] 0 (st0 ["continue"]) ("t1", "working") "continue" []
           eq_refl eq_refl eq_refl).
Defined.

(** C2 (counterexample): a follow-up message built with identifiers that are
    supplied (non-null) but empty does not carry them. *)
Lemma build_message_empty_ids_not_carried :
  match build_message scenario_world "hi" (Some "") (Some "") (st0 []) with
  | (Ok m, _) => taskId m = None /\ contextId m = None /\ taskId m <> Some ""
  | _ => False
  end.
Proof. simpl. split; [reflexivity|]. split; [reflexivity|]. discriminate. Qed.

(** C2 (amended): a message for a new conversation has no task or context
    id; a follow-up built with non-empty task and context ids carries both,
    equal to the ones supplied; a task or context id that is supplied but
    empty is dropped, the message being the one built without it. *)
Theorem build_message_ids
    (w : World) (text tid cid : string) (s : St) :
  tid <> "" -> cid <> "" ->
  (exists m_new m_follow s1 s2,
    build_message w text None None s = (Ok m_new, s1) /\
    taskId m_new = None /\ contextId m_new = None /\
    build_message w text (Some tid) (Some cid) s = (Ok m_follow, s2) /\
    taskId m_follow = Some tid /\ contextId m_follow = Some cid) /\
  (forall o, build_message w text (Some "") o s = build_message w text None o s) /\
  (forall o, build_message w text o (Some "") s = build_message w text o None s).
Proof.
  intros Ht Hc.
  split; [|split; intros o; rewrite !build_message_eq; reflexivity].
  do 4 eexists. rewrite !build_message_eq.
  split; [reflexivity|]. split; [reflexivity|]. split; [reflexivity|].
  split; [reflexivity|]. unfold built_message, py_truthy; simpl.
  apply String.eqb_neq in Ht, Hc. rewrite Ht, Hc. split; reflexivity.
Qed.

Lemma build_message_ids_witness :
  "t1" <> "" /\ "c1" <> "" /\
  (exists m_new m_follow s1 s2,
    build_message scenario_world "continue" None None (st0 []) = (Ok m_new, s1) /\
    taskId m_new = None /\ contextId m_new = None /\
    build_message scenario_world "continue" (Some "t1") (Some "c1") (st0 []) =
      (Ok m_follow, s2) /\
    taskId m_follow = Some "t1" /\ contextId m_follow = Some "c1") /\
  (forall o, build_message scenario_world "continue" (Some "") o (st0 []) =
             build_message scenario_world "continue" None o (st0 [])) /\
  (forall o, build_message scenario_world "continue" o (Some "") (st0 []) =
             build_message scenario_world "continue" o None (st0 [])).
Proof.
  split; [discriminate|]. split; [discriminate|].
  apply (build_message_ids scenario_world "continue" "t1" "c1" (st0 []));
    discriminate.
Defined.

(** C3: if the exchange (the [try] body: submitting and draining) raises a
    [RuntimeError] whose message contains "StopAsyncIteration",
    [handle_message] prints the disconnect warning and returns normally;
    any other exception raised there propagates unchanged. *)
Theorem handle_message_disconnect_recoverable
    (w : World) (f : nat) (text : string) (tid cid : option string)
    (s s2 : St) (e : exn) :
  try_body w (handle_message w f) (built_message w text tid cid s)
    (mkSt (inputs s) (S (uuid_ctr s)) (sent s) (out s)) = (Raise e, s2) ->
  handle_message w (S f) text tid cid s =
  (if is_stop_async_iteration e then (Ok tt, emit (EvStdout disconnect_msg) s2)
   else (Raise e, s2)).
Proof.
  intros H. rewrite handle_message_S. unfold catch_disconnect. rewrite H.
  destruct (is_stop_async_iteration e); reflexivity.
Qed.

Lemma handle_message_disconnect_recoverable_witness :
  try_body disconnect_world (handle_message disconnect_world 2)
    (built_message disconnect_world "What time is it?" None None (st0 []))
    (mkSt [] 1 0 []) =
    (Raise (RuntimeError "async generator raised StopAsyncIteration"),
     mkSt [] 1 1 [EvSend (built_message disconnect_world "What time is it?" None None (st0 []))]) /\
  handle_message disconnect_world 3 "What time is it?" None None (st0 []) =
    (Ok tt, emit (EvStdout disconnect_msg)
              (mkSt [] 1 1 [EvSend (built_message disconnect_world "What time is it?" None None (st0 []))])).
Proof.
  split; [reflexivity|].
  exact (handle_message_disconnect_recoverable disconnect_world 2 "What time is it?"
           None None (st0 []) _ _ (eq_refl _)).
Defined.

(** C4: a line that equals "exit" or "quit" case-insensitively ends the
    loop normally; nothing is submitted for it. *)
Theorem interactive_loop_exit_keyword
    (w : World) (f : nat) (s : St) (l : string) (rest : list string) :
  inputs s = l :: rest ->
  (py_lower l = "exit" \/ py_lower l = "quit") ->
  interactive_loop_iter w (S f) s =
  (Ok tt, mkSt rest (uuid_ctr s) (sent s)
            (out s ++ [EvPrompt query_prompt; EvStdout "👋 Exiting..."])).
Proof.
  intros Hin Hexit.
  simpl. unfold bind at 1, input, emit. rewrite Hin. simpl.
  rewrite (is_exit_strip l Hexit). unfold print, emit. simpl.
  rewrite <- app_assoc. reflexivity.
Qed.

Lemma interactive_loop_exit_keyword_witness :
  inputs (st0 ["EXIT"]) = "EXIT" :: [] /\
  (py_lower "EXIT" = "exit" \/ py_lower "EXIT" = "quit") /\
  interactive_loop_iter scenario_world 1 (st0 ["EXIT"]) =
  (Ok tt, mkSt [] 0 0 ([] ++ [EvPrompt query_prompt; EvStdout "👋 Exiting..."])).
Proof.
  split; [reflexivity|]. split; [left; reflexivity|].
  apply (interactive_loop_exit_keyword scenario_world 0 (st0 ["EXIT"]) "EXIT" []);
    [reflexivity | left; reflexivity].
Defined.

(** C5 (counterexample): the line " exit" is not "exit" or "quit" compared
    case-insensitively, yet the loop stops on it without any submission. *)
Lemma interactive_loop_padded_exit_not_submitted :
  py_lower " exit" <> "exit" /\ py_lower " exit" <> "quit" /\
  interactive_loop_iter scenario_world 1 (st0 [" exit"]) =
  (Ok tt, mkSt [] 0 0 [EvPrompt query_prompt; EvStdout "👋 Exiting..."]).
Proof.
  split; [discriminate|]. split; [discriminate|]. reflexivity.
Qed.

(** C5 (amended): each line read is first stripped of surrounding
    whitespace.  When the stripped line is "exit" or "quit"
    case-insensitively (so also for a padded keyword such as " exit"), the
    loop prints the goodbye line and ends without submitting anything.
    Otherwise it calls [handle_message] exactly once, with the stripped line
    and no task or context id, and reads the next line only after that
    call returned normally. *)
Theorem interactive_loop_submits_once
    (w : World) (f : nat) (s : St) (l : string) (rest : list string) :
  inputs s = l :: rest ->
  interactive_loop_iter w (S f) s =
  if is_exit (py_strip l) then
    (Ok tt, mkSt rest (uuid_ctr s) (sent s)
              (out s ++ [EvPrompt query_prompt; EvStdout "👋 Exiting..."]))
  else
    bind (handle_message w (S f) (py_strip l) None None)
         (fun _ => interactive_loop_iter w f)
         (mkSt rest (uuid_ctr s) (sent s) (out s ++ [EvPrompt query_prompt])).
Proof.
  intros Hin.
  simpl. unfold bind at 1, input, emit. rewrite Hin. simpl.
  destruct (is_exit (py_strip l)).
  - unfold print, emit. simpl. rewrite <- app_assoc. reflexivity.
  - reflexivity.
Qed.

Lemma interactive_loop_submits_once_witness :
  inputs (st0 ["  What time is it? "; " EXIT"]) = "  What time is it? " :: [" EXIT"] /\
  interactive_loop_iter disconnect_world 2 (st0 ["  What time is it? "; " EXIT"]) =
  bind (handle_message disconnect_world 2 "What time is it?" None None)
       (fun _ => interactive_loop_iter disconnect_world 1)
       (mkSt [" EXIT"] 0 0 ([] ++ [EvPrompt query_prompt])) /\
  inputs (mkSt [" EXIT"] 1 1 []) = " EXIT" :: [] /\
  interactive_loop_iter disconnect_world 1 (mkSt [" EXIT"] 1 1 []) =
  (Ok tt, mkSt [] 1 1 ([] ++ [EvPrompt query_prompt; EvStdout "👋 Exiting..."])).
Proof.
  split; [reflexivity|]. split.
  - exact (interactive_loop_submits_once disconnect_world 1
             (st0 ["  What time is it? "; " EXIT"]) "  What time is it? " [" EXIT"]
             eq_refl).
  - split; [reflexivity|].
    exact (interactive_loop_submits_once disconnect_world 0
             (mkSt [" EXIT"] 1 1 []) " EXIT" [] eq_refl).
Defined.

(** C6: when the response sequence yields no item and ends normally,
    [handle_message] reports "No response" and returns normally. *)
Theorem handle_message_no_response
    (w : World) (f : nat) (text : string) (tid cid : option string) (s : St) :
  (forall m, send_message_resp w (sent s) m = mkStream [] None) ->
  exists m,
    handle_message w (S f) text tid cid s =
    (Ok tt, mkSt (inputs s) (S (uuid_ctr s)) (S (sent s))
              (out s ++ [EvSend m; EvStdout no_response_msg])).
Proof.
  intros Hresp. exists (built_message w text tid cid s).
  rewrite handle_message_S. unfold catch_disconnect, try_body, bind at 1, send_message.
  simpl. rewrite Hresp. simpl. unfold print, emit. simpl.
  rewrite <- app_assoc. reflexivity.
Qed.

Definition silent_world : World :=
  mkWorld (fun _ => "uuid") (fun _ _ => mkStream [] None)
    (fun t u => inr (task_id t, u)) (fun p => "json") (fun p => "repr")
    (fun x => py_lower (py_strip x)) (fun _ => None).

Lemma handle_message_no_response_witness :
  (forall m, send_message_resp silent_world 0 m = mkStream [] None) /\
  exists m,
    handle_message silent_world 1 "What time is it?" None None (st0 []) =
    (Ok tt, mkSt [] 1 1 ([] ++ [EvSend m; EvStdout no_response_msg])).
Proof.
  split; [intros; reflexivity|].
  apply (handle_message_no_response silent_world 0 "What time is it?" None None (st0 [])).
  intros; reflexivity.
Defined.

(** C7: when the response sequence is one terminal [Message] item, it is
    rendered as "Agent Reply", and nothing else happens: no prompt, no
    further submission, no line read. *)
Theorem handle_message_terminal_reply
    (w : World) (f : nat) (text : string) (tid cid : option string) (s : St)
    (reply : AgentMessage) :
  (forall m, send_message_resp w (sent s) m = mkStream [ItemMessage reply] None) ->
  exists m,
    handle_message w (S f) text tid cid s =
    print_json_response w (PObj reply) "Agent Reply"
      (mkSt (inputs s) (S (uuid_ctr s)) (S (sent s)) (out s ++ [EvSend m])) /\
    handle_message w (S f) text tid cid s =
    (Ok tt, mkSt (inputs s) (S (uuid_ctr s)) (S (sent s))
              (out s ++ EvSend m :: EvStdout "
=== Agent Reply ===" :: pjr_events w (PObj reply))).
Proof.
  intros Hresp. exists (built_message w text tid cid s).
  assert (E : handle_message w (S f) text tid cid s =
              print_json_response w (PObj reply) "Agent Reply"
                (mkSt (inputs s) (S (uuid_ctr s)) (S (sent s))
                   (out s ++ [EvSend (built_message w text tid cid s)]))).
  { rewrite handle_message_S. unfold catch_disconnect, try_body, bind at 1, send_message.
    simpl. rewrite Hresp. simpl. unfold bind. simpl.
    unfold print_json_response, try_except, bind, print, rprint_renderable, emit.
    simpl. rewrite <- !app_assoc. reflexivity. }
  split; [exact E|]. rewrite E, print_json_response_eq by reflexivity. simpl.
  rewrite <- app_assoc. reflexivity.
Qed.

Lemma handle_message_terminal_reply_witness :
  (forall m, send_message_resp disconnect_world 1 m = mkStream [ItemMessage "It is noon."] None) /\
  exists m,
    handle_message disconnect_world 1 "What time is it?" None None (mkSt [] 0 1 []) =
    print_json_response disconnect_world (PObj "It is noon.") "Agent Reply"
      (mkSt [] 1 2 ([] ++ [EvSend m])) /\
    handle_message disconnect_world 1 "What time is it?" None None (mkSt [] 0 1 []) =
    (Ok tt, mkSt [] 1 2
              ([] ++ EvSend m :: EvStdout "
=== Agent Reply ===" :: pjr_events disconnect_world (PObj "It is noon."))).
Proof.
  split; [intros; reflexivity|].
  apply (handle_message_terminal_reply disconnect_world 0 "What time is it?" None None
           (mkSt [] 0 1 []) "It is noon.").
  intros; reflexivity.
Defined.

(** The dict [{'tag': '[/b]', 'ids': {1}}]: it has no [root] or
    [model_dump], and [json.dumps] raises [TypeError] on the set. *)
Definition set_payload : Payload :=
  PValue (inl (OtherError "TypeError" "Object of type set is not JSON serializable"))
         "{'tag': '[/b]', 'ids': {1}}".

(** The error line of the fallback renders: its tags are balanced. *)
Lemma set_payload_error_line_renders (w : World) :
  markup_error w ("[red bold]Error printing JSON:[/red bold] " ++
                  "Object of type set is not JSON serializable") = None.
Proof.
  unfold markup_error. vm_compute. rewrite String.eqb_refl.
  match goal with |- context [if ?b then None else None] => destruct b end;
  reflexivity.
Qed.

(** The [repr] of the dict holds a closing tag with nothing open. *)
Lemma set_payload_repr_markup_error (w : World) :
  markup_error w "{'tag': '[/b]', 'ids': {1}}" =
  Some (MarkupError "closing tag '[/b]' at position 9 doesn't match any open tag").
Proof. vm_compute. reflexivity. Qed.

(** C8 (refuted): [print_json_response] does raise.  On
    [print_json_response({'tag': '[/b]', 'ids': {1}}, 'x')] formatting fails,
    the error line is printed, and then the fallback [rich.print] of the
    payload's [repr] raises [MarkupError], since rich reads ['[/b]'] as a
    closing tag that matches no open tag. *)
Theorem print_json_response_fallback_markup_error (w : World) (s : St) :
  print_json_response w set_payload "x" s =
  (Raise (MarkupError "closing tag '[/b]' at position 9 doesn't match any open tag"),
   mkSt (inputs s) (uuid_ctr s) (sent s)
     (out s ++ [EvStdout "
=== x ===";
                EvRich "[red bold]Error printing JSON:[/red bold] Object of type set is not JSON serializable"])).
Proof.
  unfold print_json_response, try_except, bind, print, raise, payload_dump, payload_repr,
    set_payload. simpl exn_str.
  rewrite rprint_ok by apply set_payload_error_line_renders.
  unfold rprint. rewrite set_payload_repr_markup_error.
  unfold emit. simpl. rewrite <- app_assoc. reflexivity.
Qed.

(** C10: an empty task or context id is dropped exactly like a missing one,
    so a follow-up built with two empty ids is the message of a new
    conversation. *)
Theorem build_message_empty_id_is_none
    (w : World) (text : string) (tid cid : option string) (s : St) :
  build_message w text (Some "") cid s = build_message w text None cid s /\
  build_message w text tid (Some "") s = build_message w text tid None s /\
  build_message w text (Some "") (Some "") s = build_message w text None None s /\
  match build_message w text (Some "") (Some "") s with
  | (Ok m, _) => taskId m = None /\ contextId m = None
  | _ => False
  end.
Proof.
  rewrite !build_message_eq. repeat split.
Qed.

(** ** The trace invariant *)

Lemma count_sends_app (a b : list Event) :
  count_sends (a ++ b) = count_sends a + count_sends b.
Proof. induction a as [|[] r IH]; simpl; rewrite ?IH; reflexivity. Qed.

Lemma count_prompts_app (a b : list Event) :
  count_prompts (a ++ b) = count_prompts a + count_prompts b.
Proof. induction a as [|[] r IH]; simpl; rewrite ?IH; reflexivity. Qed.

Lemma steps_refl (s : St) : steps s s.
Proof.
  exists [], []. rewrite app_nil_r. simpl. repeat split; lia.
Qed.

Lemma steps_trans (s1 s2 s3 : St) : steps s1 s2 -> steps s2 s3 -> steps s1 s3.
Proof.
  intros (n1 & c1 & Ho1 & Hi1 & Hs1 & Hu1 & Hl1) (n2 & c2 & Ho2 & Hi2 & Hs2 & Hu2 & Hl2).
  exists (n1 ++ n2), (c1 ++ c2).
  rewrite Ho2, Ho1, <- app_assoc, Hi1, Hi2, <- app_assoc, count_sends_app,
    count_prompts_app, length_app.
  repeat split; lia.
Qed.

Lemma steps_emit (s : St) (e : Event) :
  count_sends [e] = 0 -> steps s (emit e s).
Proof.
  intros H. exists [e], []. simpl in *. repeat split; lia.
Qed.

Lemma good_ret {A} (a : A) : good (ret a).
Proof. intros s r s' H. inversion H; subst. apply steps_refl. Qed.

Lemma good_raise {A} (e : exn) : good (A := A) (raise e).
Proof. intros s r s' H. inversion H; subst. apply steps_refl. Qed.

Lemma good_bind {A B} (m : M A) (k : A -> M B) :
  good m -> (forall a, good (k a)) -> good (bind m k).
Proof.
  intros Hm Hk s r s' H. unfold bind in H.
  destruct (m s) as [[a|e|] s1] eqn:E.
  - eapply steps_trans; [eapply Hm; exact E | eapply Hk; exact H].
  - inversion H; subst. eapply Hm; exact E.
  - inversion H; subst. eapply Hm; exact E.
Qed.

Lemma good_try_except (m : M unit) (h : exn -> M unit) :
  good m -> (forall e, good (h e)) -> good (try_except m h).
Proof.
  intros Hm Hh s r s' H. unfold try_except in H.
  destruct (m s) as [[a|e|] s1] eqn:E.
  - inversion H; subst. eapply Hm; exact E.
  - eapply steps_trans; [eapply Hm; exact E | eapply Hh; exact H].
  - inversion H; subst. eapply Hm; exact E.
Qed.

(** A world whose [uuid4().hex] draws are pairwise different. *)
Definition counter_world : World :=
  mkWorld (fun n => string_of_list_ascii (repeat "a"%char n))
    (fun _ _ => mkStream [] None)
    (fun t u => inr (task_id t, u)) (fun p => "json") (fun p => "repr")
    (fun x => py_lower (py_strip x)) (fun _ => None).

Lemma length_string_of_list_ascii (l : list ascii) :
  String.length (string_of_list_ascii l) = List.length l.
Proof. induction l as [|c l IH]; simpl; [reflexivity | rewrite IH; reflexivity]. Qed.

Lemma counter_world_uuid_injective (a b : nat) :
  uuid4_hex counter_world a = uuid4_hex counter_world b -> a = b.
Proof.
  simpl. intros H. apply (f_equal String.length) in H.
  rewrite !length_string_of_list_ascii, !repeat_length in H. exact H.
Qed.

(** C9: every [build_message] draws a new [uuid4().hex]: when the draws are
    pairwise different, a message built from a state the client reached
    after building another (through any sequence of the client's steps, or
    none) has a different message id. *)
Theorem build_message_distinct_ids (w : World)
    (t1 t2 : string) (a1 b1 a2 b2 : option string) (s1 s1' s2 s2' : St)
    (m1 m2 : Message) :
  (forall i j, uuid4_hex w i = uuid4_hex w j -> i = j) ->
  build_message w t1 a1 b1 s1 = (Ok m1, s1') ->
  steps s1' s2 ->
  build_message w t2 a2 b2 s2 = (Ok m2, s2') ->
  messageId m1 <> messageId m2.
Proof.
  intros Hinj H1 Hst H2.
  rewrite build_message_eq in H1, H2.
  injection H1 as <- <-. injection H2 as <- _.
  destruct Hst as (new & consumed & _ & _ & _ & Hu & _).
  simpl in Hu. unfold built_message. simpl. intros Heq.
  apply Hinj in Heq. lia.
Qed.

Lemma build_message_distinct_ids_witness :
  (forall i j, uuid4_hex counter_world i = uuid4_hex counter_world j -> i = j) /\
  build_message counter_world "hi" None None (st0 []) =
    (Ok (built_message counter_world "hi" None None (st0 [])), mkSt [] 1 0 []) /\
  steps (mkSt [] 1 0 []) (mkSt [] 1 0 []) /\
  build_message counter_world "hi" None None (mkSt [] 1 0 []) =
    (Ok (built_message counter_world "hi" None None (mkSt [] 1 0 [])), mkSt [] 2 0 []) /\
  messageId (built_message counter_world "hi" None None (st0 [])) <>
  messageId (built_message counter_world "hi" None None (mkSt [] 1 0 [])).
Proof.
  split; [exact counter_world_uuid_injective|].
  split; [reflexivity|]. split; [apply steps_refl|]. split; [reflexivity|].
  exact (build_message_distinct_ids counter_world "hi" "hi" None None None None
           (st0 []) (mkSt [] 1 0 []) (mkSt [] 1 0 []) (mkSt [] 2 0 [])
           _ _ counter_world_uuid_injective eq_refl (steps_refl _) eq_refl).
Defined.

Lemma good_print (x : string) : good (print x).
Proof. intros s r s' H. inversion H; subst. apply steps_emit. reflexivity. Qed.

Lemma good_rprint (w : World) (x : string) : good (rprint w x).
Proof.
  intros s r s' H. unfold rprint in H. destruct (markup_error w x); inversion H; subst.
  - apply steps_refl.
  - apply steps_emit. reflexivity.
Qed.

Lemma good_rprint_renderable (x : string) : good (rprint_renderable x).
Proof. intros s r s' H. inversion H; subst. apply steps_emit. reflexivity. Qed.

Lemma good_traceback (e : exn) : good (traceback_print_exc e).
Proof. intros s r s' H. inversion H; subst. apply steps_emit. reflexivity. Qed.

Lemma good_input (p : string) : good (input p).
Proof.
  intros s r s' H. unfold input in H. destruct (inputs s) as [|l rest] eqn:E;
    inversion H; subst.
  - apply steps_emit. reflexivity.
  - exists [EvPrompt p], [l]. simpl. rewrite E. repeat split; lia.
Qed.

Lemma good_connect_client (c : option exn) : good (connect_client c).
Proof. destruct c; [apply good_raise | apply good_ret]. Qed.

Lemma good_stream_end (e : option exn) : good (stream_end e).
Proof. destruct e; [apply good_raise | apply good_ret]. Qed.

Lemma good_print_json_response (w : World) (p : Payload) (title : string) :
  good (print_json_response w p title).
Proof.
  apply good_bind; [apply good_print|intros _].
  apply good_try_except.
  - destruct (payload_dump w p); [apply good_raise | apply good_rprint_renderable].
  - intros e. apply good_bind; [apply good_rprint | intros _; apply good_rprint].
Qed.

Section Invariant.

Variable w : World.
Variable hm : string -> option string -> option string -> M unit.
Hypothesis hm_good : forall text tid cid, good (hm text tid cid).

Lemma good_process_item (item : Item) : good (process_item w hm item).
Proof.
  destruct item as [t u|m]; simpl; [|apply good_print_json_response].
  apply good_bind.
  - destruct (model_dump_pair w t u); [apply good_raise | apply good_ret].
  - intros d. apply good_bind; [apply good_print_json_response | intros _].
    destruct (TaskState_beq _ _); [|apply good_ret].
    apply good_bind; [apply good_input | intros l; apply hm_good].
Qed.

Lemma good_drain (items : list Item) (c : nat) : good (drain w hm items c).
Proof.
  revert c. induction items as [|it rest IH]; intros c; simpl.
  - apply good_ret.
  - apply good_bind; [apply good_process_item | intros _; apply IH].
Qed.

End Invariant.

Lemma good_handle_message (w : World) (fuel : nat) :
  forall text tid cid, good (handle_message w fuel text tid cid).
Proof.
  induction fuel as [|f IH]; intros text tid cid s r s' H.
  - inversion H; subst. apply steps_refl.
  - rewrite handle_message_S in H.
    set (msg := built_message w text tid cid s) in H.
    set (s2 := mkSt (inputs s) (S (uuid_ctr s)) (S (sent s)) (out s ++ [EvSend msg])).
    assert (H2 : steps s s2).
    { exists [EvSend msg], []. simpl. repeat split; lia. }
    set (strm := send_message_resp w (sent s) msg).
    set (rest := (n <- drain w (handle_message w f) (rs_items strm) 0 ;;
                  stream_end (rs_end strm) ;;;
                  if Nat.eqb n 0 then print no_response_msg else ret tt) : M unit).
    assert (Hr : good rest).
    { apply good_bind; [apply good_drain; exact IH | intros n].
      apply good_bind; [apply good_stream_end | intros _].
      destruct (Nat.eqb n 0); [apply good_print | apply good_ret]. }
    assert (E : try_body w (handle_message w f) msg
                  (mkSt (inputs s) (S (uuid_ctr s)) (sent s) (out s)) = rest s2)
      by reflexivity.
    unfold catch_disconnect in H. rewrite E in H.
    destruct (rest s2) as [r1 s3] eqn:E3.
    assert (H3 : steps s s3) by (eapply steps_trans; [exact H2 | eapply Hr; exact E3]).
    destruct r1 as [a|e|].
    + inversion H; subst. exact H3.
    + destruct (is_stop_async_iteration e).
      * eapply steps_trans; [exact H3 | eapply good_print; exact H].
      * inversion H; subst. exact H3.
    + inversion H; subst. exact H3.
Qed.

Lemma good_interactive_loop_iter (w : World) (fuel : nat) :
  good (interactive_loop_iter w fuel).
Proof.
  induction fuel as [|f IH]; simpl.
  - intros s r s' H. inversion H; subst. apply steps_refl.
  - apply good_bind; [apply good_input | intros raw].
    destruct (is_exit (py_strip raw)); [apply good_print|].
    apply good_bind; [exact (good_handle_message w (S f) _ _ _) | intros _; exact IH].
Qed.

Lemma good_run_main (w : World) (c : option exn) (url : string) (fuel : nat) :
  good (run_main w c url fuel).
Proof.
  apply good_bind; [apply good_print | intros _].
  apply good_try_except.
  - apply good_bind; [apply good_connect_client | intros _].
    apply good_bind; [apply good_rprint | intros _].
    apply good_bind; [apply good_print | intros _].
    apply good_interactive_loop_iter.
  - intros e. apply good_bind; [apply good_traceback | intros _; apply good_print].
Qed.

(** The first event of a [handle_message] run with fuel is the submission
    of the message it built. *)
Lemma handle_message_first_send (w : World) (f : nat) text tid cid (s s' : St)
    (r : res unit) :
  handle_message w (S f) text tid cid s = (r, s') ->
  exists new, out s' = out s ++ EvSend (built_message w text tid cid s) :: new.
Proof.
  intros H.
  set (s2 := mkSt (inputs s) (S (uuid_ctr s)) (S (sent s))
               (out s ++ [EvSend (built_message w text tid cid s)])).
  assert (H2 : steps s2 s').
  { rewrite handle_message_S in H.
    set (strm := send_message_resp w (sent s) (built_message w text tid cid s)).
    set (rest := (n <- drain w (handle_message w f) (rs_items strm) 0 ;;
                  stream_end (rs_end strm) ;;;
                  if Nat.eqb n 0 then print no_response_msg else ret tt) : M unit).
    assert (Hr : good rest).
    { apply good_bind; [apply good_drain; apply good_handle_message | intros n].
      apply good_bind; [apply good_stream_end | intros _].
      destruct (Nat.eqb n 0); [apply good_print | apply good_ret]. }
    unfold catch_disconnect in H.
    change (try_body w (handle_message w f) (built_message w text tid cid s)
              (mkSt (inputs s) (S (uuid_ctr s)) (sent s) (out s))) with (rest s2) in H.
    destruct (rest s2) as [r1 s3] eqn:E3.
    assert (H3 : steps s2 s3) by (eapply Hr; exact E3).
    destruct r1 as [a|e|]; [inversion H; subst; exact H3| |inversion H; subst; exact H3].
    destruct (is_stop_async_iteration e).
    - eapply steps_trans; [exact H3 | eapply good_print; exact H].
    - inversion H; subst. exact H3. }
  destruct H2 as (new & consumed & Ho & _).
  exists new. rewrite Ho. simpl. rewrite <- app_assoc. reflexivity.
Qed.

Lemma process_item_no_prompt (w : World) hm hm' (item : Item) (s : St) :
  match item with
  | ItemTaskUpdate t _ => task_status_state t <> input_required
  | ItemMessage _ => True
  end ->
  process_item w hm item s = process_item w hm' item s /\
  exists r s1, process_item w hm item s = (r, s1) /\
    inputs s1 = inputs s /\ sent s1 = sent s /\ uuid_ctr s1 = uuid_ctr s.
Proof.
  intros Hn. destruct item as [t u|m]; simpl.
  - unfold bind at 1 3. destruct (model_dump_pair w t u) as [e|d]; simpl.
    + split; [reflexivity|]. do 2 eexists. repeat split.
    + assert (Hb : TaskState_beq (task_status_state t) input_required = false)
        by (destruct (task_status_state t); try reflexivity; contradiction).
      unfold bind, ret. cbv beta iota zeta. rewrite print_json_response_eq by reflexivity.
      cbv beta iota zeta. rewrite Hb. split; [reflexivity|]. do 2 eexists. repeat split.
  - split; [reflexivity|]. rewrite print_json_response_eq by reflexivity. do 2 eexists. repeat split.
Qed.

(** ** Further properties of the code *)

(** The invariant over a whole [handle_message] run, nested submissions
    included, whatever its outcome. *)
Theorem handle_message_trace_invariant (w : World) (fuel : nat) (text : string)
    (tid cid : option string) (s s' : St) (r : res unit) :
  handle_message w fuel text tid cid s = (r, s') ->
  steps s s'.
Proof. intros H. eapply good_handle_message. exact H. Qed.

Lemma handle_message_trace_invariant_witness :
  handle_message scenario_world 3 "Hi" None None (st0 ["continue"]) =
    (fst (handle_message scenario_world 3 "Hi" None None (st0 ["continue"])),
     snd (handle_message scenario_world 3 "Hi" None None (st0 ["continue"]))) /\
  steps (st0 ["continue"]) (snd (handle_message scenario_world 3 "Hi" None None (st0 ["continue"]))).
Proof.
  split; [reflexivity|].
  exact (handle_message_trace_invariant scenario_world 3 "Hi" None None (st0 ["continue"])
           _ _ eq_refl).
Defined.

(** The same invariant over a whole session of [run_main]. *)
Theorem run_main_trace_invariant (w : World) (c : option exn) (url : string)
    (fuel : nat) (s s' : St) (r : res unit) :
  run_main w c url fuel s = (r, s') ->
  steps s s'.
Proof. intros H. eapply good_run_main. exact H. Qed.

Lemma run_main_trace_invariant_witness :
  run_main scenario_world None "http://localhost:10000" 4 (st0 ["Hi"; "continue"; "exit"]) =
    (Ok tt, scenario_session_end) /\
  steps (st0 ["Hi"; "continue"; "exit"]) scenario_session_end.
Proof.
  assert (E : run_main scenario_world None "http://localhost:10000" 4
                (st0 ["Hi"; "continue"; "exit"]) = (Ok tt, scenario_session_end))
    by (vm_compute; reflexivity).
  split; [exact E|].
  exact (run_main_trace_invariant scenario_world None "http://localhost:10000" 4
           (st0 ["Hi"; "continue"; "exit"]) _ _ E).
Defined.

Lemma bind_ok {A B} (m : M A) (k : A -> M B) (s s1 : St) (a : A) :
  m s = (Ok a, s1) -> bind m k s = k a s1.
Proof. intros H. unfold bind. rewrite H. reflexivity. Qed.

Lemma bind_raise {A B} (m : M A) (k : A -> M B) (s s1 : St) (e : exn) :
  m s = (Raise e, s1) -> bind m k s = (Raise e, s1).
Proof. intros H. unfold bind. rewrite H. reflexivity. Qed.

Lemma drain_count (w : World) hm (items : list Item) :
  forall (c : nat) (s s' : St) (n : nat),
  drain w hm items c s = (Ok n, s') -> n = c + length items.
Proof.
  induction items as [|it rest IH]; intros c s s' n H; simpl in H.
  - inversion H; subst. simpl. lia.
  - unfold bind in H. destruct (process_item w hm it s) as [[a|e|] s1];
      try discriminate.
    apply IH in H. simpl. lia.
Qed.

(** When the drain of the response sequence of a submission completes,
    [response_count] is the number of items it yielded; when the sequence
    then ends normally, the "No response" line is printed exactly when the
    sequence was empty, and [handle_message]'s [try] body returns. *)
Theorem drain_response_count (w : World) hm (m : Message) (s s1 : St) (n : nat) :
  drain w hm (rs_items (send_message_resp w (sent s) m)) 0
    (mkSt (inputs s) (uuid_ctr s) (S (sent s)) (out s ++ [EvSend m])) = (Ok n, s1) ->
  n = length (rs_items (send_message_resp w (sent s) m)) /\
  (rs_end (send_message_resp w (sent s) m) = None ->
   try_body w hm m s =
   (Ok tt, match rs_items (send_message_resp w (sent s) m) with
           | [] => emit (EvStdout no_response_msg) s1
           | _ :: _ => s1
           end)).
Proof.
  intros H.
  assert (Hn : n = length (rs_items (send_message_resp w (sent s) m)))
    by (apply drain_count in H; exact H).
  split; [exact Hn|]. intros Hend.
  unfold try_body. erewrite bind_ok; [|reflexivity].
  erewrite bind_ok; [|exact H]. rewrite Hend.
  unfold stream_end. erewrite bind_ok; [|reflexivity].
  rewrite Hn. destruct (rs_items (send_message_resp w (sent s) m)); reflexivity.
Qed.

Definition noon_message : Message :=
  built_message disconnect_world "What time is it?" None None (mkSt [] 0 1 []).

Lemma drain_response_count_witness :
  drain disconnect_world (handle_message disconnect_world 2)
    (rs_items (send_message_resp disconnect_world (sent (mkSt [] 0 1 [])) noon_message)) 0
    (mkSt [] 0 2 ([] ++ [EvSend noon_message])) =
    (Ok 1, snd (drain disconnect_world (handle_message disconnect_world 2)
                 [ItemMessage "It is noon."] 0 (mkSt [] 0 2 [EvSend noon_message]))) /\
  1 = length (rs_items (send_message_resp disconnect_world 1 noon_message)) /\
  (rs_end (send_message_resp disconnect_world 1 noon_message) = None ->
   try_body disconnect_world (handle_message disconnect_world 2) noon_message
     (mkSt [] 0 1 []) =
   (Ok tt, snd (drain disconnect_world (handle_message disconnect_world 2)
                 [ItemMessage "It is noon."] 0 (mkSt [] 0 2 [EvSend noon_message])))).
Proof.
  assert (E : drain disconnect_world (handle_message disconnect_world 2)
    (rs_items (send_message_resp disconnect_world (sent (mkSt [] 0 1 [])) noon_message)) 0
    (mkSt [] 0 2 ([] ++ [EvSend noon_message])) =
    (Ok 1, snd (drain disconnect_world (handle_message disconnect_world 2)
                 [ItemMessage "It is noon."] 0 (mkSt [] 0 2 [EvSend noon_message]))))
    by reflexivity.
  split; [exact E|].
  exact (drain_response_count disconnect_world (handle_message disconnect_world 2)
           noon_message (mkSt [] 0 1 []) _ 1 E).
Defined.

(** An item that does not ask for input. *)
Definition no_input_request (item : Item) : Prop :=
  match item with
  | ItemTaskUpdate t _ => task_status_state t <> input_required
  | ItemMessage _ => True
  end.

(** Draining items none of which is an "input-required" task never reads a
    line, submits nothing, draws no message id, and does not depend on the
    recursive [handle_message] at all. *)
Theorem drain_without_input_request (w : World) hm hm' (items : list Item) :
  Forall no_input_request items ->
  forall (c : nat) (s s' : St) (r : res nat),
  drain w hm items c s = (r, s') ->
  drain w hm' items c s = (r, s') /\
  inputs s' = inputs s /\ sent s' = sent s /\ uuid_ctr s' = uuid_ctr s.
Proof.
  induction 1 as [|it rest Hit Hrest IH]; intros c s s' r H; simpl in *.
  - inversion H; subst. repeat split.
  - destruct (process_item_no_prompt w hm hm' it s Hit)
      as [Heq (r1 & s1 & E1 & Hi1 & Hs1 & Hu1)].
    unfold bind in *. rewrite <- Heq, E1. rewrite E1 in H.
    destruct r1 as [a|e|].
    + destruct (IH (S c) s1 s' r H) as (H' & Hi & Hs & Hu).
      split; [exact H'|]. repeat split; congruence.
    + inversion H; subst. repeat split; congruence.
    + inversion H; subst. repeat split; congruence.
Qed.

Lemma drain_without_input_request_witness :
  Forall no_input_request [ItemTaskUpdate t1_done "done"; ItemMessage "bye"] /\
  drain scenario_world (handle_message scenario_world 0)
    [ItemTaskUpdate t1_done "done"; ItemMessage "bye"] 0 (st0 ["unused"]) =
    (Ok 2, snd (drain scenario_world (handle_message scenario_world 0)
                 [ItemTaskUpdate t1_done "done"; ItemMessage "bye"] 0 (st0 ["unused"]))) /\
  drain scenario_world (handle_message scenario_world 5)
    [ItemTaskUpdate t1_done "done"; ItemMessage "bye"] 0 (st0 ["unused"]) =
    (Ok 2, snd (drain scenario_world (handle_message scenario_world 0)
                 [ItemTaskUpdate t1_done "done"; ItemMessage "bye"] 0 (st0 ["unused"]))).
Proof.
  assert (HF : Forall no_input_request [ItemTaskUpdate t1_done "done"; ItemMessage "bye"])
    by (repeat constructor; discriminate).
  assert (E : drain scenario_world (handle_message scenario_world 0)
    [ItemTaskUpdate t1_done "done"; ItemMessage "bye"] 0 (st0 ["unused"]) =
    (Ok 2, snd (drain scenario_world (handle_message scenario_world 0)
                 [ItemTaskUpdate t1_done "done"; ItemMessage "bye"] 0 (st0 ["unused"]))))
    by reflexivity.
  split; [exact HF|]. split; [exact E|].
  exact (proj1 (drain_without_input_request scenario_world _ (handle_message scenario_world 5)
                  _ HF 0 (st0 ["unused"]) _ _ E)).
Defined.

(** When the agent asks for input and the operator's input is exhausted,
    [input()] raises [EOFError], which [handle_message] does not catch. *)
Theorem handle_message_follow_up_eof (w : World) (f : nat) (text : string)
    (tid cid : option string) (s : St) (t : Task) (u : Update)
    (rest : list Item) (e_end : option exn) (d : string * string) :
  send_message_resp w (sent s) (built_message w text tid cid s) =
    mkStream (ItemTaskUpdate t u :: rest) e_end ->
  task_status_state t = input_required ->
  model_dump_pair w t u = inr d ->
  inputs s = [] ->
  fst (handle_message w (S f) text tid cid s) = Raise EOFError.
Proof.
  intros Hresp Hst Hd Hin.
  rewrite handle_message_S. unfold catch_disconnect, try_body, send_message.
  unfold bind at 1. cbv beta iota zeta. simpl sent. rewrite Hresp. simpl.
  unfold process_item, bind. rewrite Hd. cbv beta iota zeta. unfold ret.
  rewrite print_json_response_eq by reflexivity. cbv beta iota zeta. rewrite Hst. simpl.
  rewrite Hin. reflexivity.
Qed.

Lemma handle_message_follow_up_eof_witness :
  send_message_resp scenario_world 0 (built_message scenario_world "Hi" None None (st0 [])) =
    mkStream [ItemTaskUpdate t1_waiting "working"] None /\
  task_status_state t1_waiting = input_required /\
  model_dump_pair scenario_world t1_waiting "working" = inr ("t1", "working") /\
  inputs (st0 []) = [] /\
  fst (handle_message scenario_world 3 "Hi" None None (st0 [])) = Raise EOFError.
Proof.
  split; [reflexivity|]. split; [reflexivity|]. split; [reflexivity|].
  split; [reflexivity|].
  exact (handle_message_follow_up_eof scenario_world 2 "Hi" None None (st0 [])
           t1_waiting "working" [] None ("t1", "working") eq_refl eq_refl eq_refl eq_refl).
Defined.

(** If connecting raises, [run_main] reports it (traceback and hint) and
    returns normally without entering the loop: no prompt, no line read, no
    submission. *)
Theorem run_main_connect_failure (w : World) (e : exn) (url : string)
    (fuel : nat) (s : St) :
  run_main w (Some e) url fuel s =
  (Ok tt, mkSt (inputs s) (uuid_ctr s) (sent s)
            (out s ++ [EvStdout ("Connecting to agent at " ++ url ++ "...");
                       EvTraceback e; EvStdout failed_msg])).
Proof.
  unfold run_main, bind, print, try_except, connect_client, raise,
    traceback_print_exc, emit. simpl. rewrite <- !app_assoc. reflexivity.
Qed.

(** When the operator's input ends (EOF) at the query prompt, [input()]
    raises [EOFError]; [run_main] catches it like any failure and returns
    normally after the traceback and the hint.  (The url is printed inside
    rich markup, so this holds for a url that rich renders without a
    [MarkupError].) *)
Theorem run_main_eof_at_prompt (w : World) (url : string) (f : nat) (s : St) :
  markup_error w ("[green bold]✅ Connected to " ++ url) = None ->
  inputs s = [] ->
  run_main w None url (S f) s =
  (Ok tt, mkSt [] (uuid_ctr s) (sent s)
            (out s ++ [EvStdout ("Connecting to agent at " ++ url ++ "...");
                       EvRich ("[green bold]✅ Connected to " ++ url);
                       EvStdout "
Enter your query below. Type 'exit' to quit.";
                       EvPrompt query_prompt;
                       EvTraceback EOFError; EvStdout failed_msg])).
Proof.
  intros Hm Hin.
  unfold run_main. rewrite (rprint_no_markup w _ Hm).
  unfold interactive_loop, bind, print, rprint_renderable, try_except, connect_client,
    ret, traceback_print_exc, emit. simpl. unfold bind, input, emit. simpl.
  rewrite Hin. simpl. rewrite <- !app_assoc. reflexivity.
Qed.

Lemma run_main_eof_at_prompt_witness :
  markup_error scenario_world ("[green bold]✅ Connected to " ++ "http://localhost:10000")
    = None /\
  inputs (st0 []) = [] /\
  run_main scenario_world None "http://localhost:10000" 1 (st0 []) =
  (Ok tt, mkSt [] 0 0
            ([] ++ [EvStdout ("Connecting to agent at " ++ "http://localhost:10000" ++ "...");
                    EvRich ("[green bold]✅ Connected to " ++ "http://localhost:10000");
                    EvStdout "
Enter your query below. Type 'exit' to quit.";
                    EvPrompt query_prompt;
                    EvTraceback EOFError; EvStdout failed_msg])).
Proof.
  assert (Hm : markup_error scenario_world
                 ("[green bold]✅ Connected to " ++ "http://localhost:10000") = None)
    by (vm_compute; reflexivity).
  split; [exact Hm|]. split; [reflexivity|].
  exact (run_main_eof_at_prompt scenario_world "http://localhost:10000" 0 (st0 []) Hm eq_refl).
Defined.

Lemma try_except_no_raise (m : M unit) (h : exn -> M unit) (s : St) (e : exn) :
  (forall e' s', fst (h e' s') <> Raise e) -> fst (try_except m h s) <> Raise e.
Proof.
  intros Hh. unfold try_except.
  destruct (m s) as [[a|e1|] s1]; simpl; [discriminate | apply Hh | discriminate].
Qed.

(** [run_main] never lets an exception escape: every exception of the
    session is caught by its [except Exception]. *)
Theorem run_main_never_raises (w : World) (c : option exn) (url : string)
    (fuel : nat) (s : St) (e : exn) :
  fst (run_main w c url fuel s) <> Raise e.
Proof.
  unfold run_main, bind at 1, print at 1. cbv beta iota zeta.
  apply try_except_no_raise. intros e' s'.
  unfold bind, traceback_print_exc, print. simpl. discriminate.
Qed.

(** An exception other than the disconnect that escapes a top-level
    [handle_message] ends the whole session: [run_main] prints the traceback
    and the hint and reads no further line. *)
Theorem run_main_error_ends_session (w : World) (url : string) (f : nat) (s : St)
    (l : string) (rest : list string) (e : exn) (s2 : St) :
  markup_error w ("[green bold]✅ Connected to " ++ url) = None ->
  inputs s = l :: rest ->
  is_exit (py_strip l) = false ->
  handle_message w (S f) (py_strip l) None None
    (mkSt rest (uuid_ctr s) (sent s)
       (out s ++ [EvStdout ("Connecting to agent at " ++ url ++ "...");
                  EvRich ("[green bold]✅ Connected to " ++ url);
                  EvStdout "
Enter your query below. Type 'exit' to quit.";
                  EvPrompt query_prompt])) = (Raise e, s2) ->
  run_main w None url (S f) s =
  (Ok tt, emit (EvStdout failed_msg) (emit (EvTraceback e) s2)).
Proof.
  intros Hm Hin Hexit Hhm.
  unfold run_main. erewrite bind_ok; [|reflexivity].
  unfold try_except.
  assert (E : (connect_client None ;;;
               rprint w ("[green bold]✅ Connected to " ++ url) ;;;
               interactive_loop w (S f))
                (emit (EvStdout ("Connecting to agent at " ++ url ++ "...")) s)
              = (Raise e, s2)).
  { erewrite bind_ok; [|reflexivity]. erewrite bind_ok; [|apply rprint_ok; exact Hm].
    unfold interactive_loop. erewrite bind_ok; [|reflexivity].
    cbn [interactive_loop_iter].
    erewrite bind_ok; [|unfold input; simpl; rewrite Hin; reflexivity].
    cbv beta zeta. rewrite Hexit.
    apply bind_raise. rewrite <- !app_assoc. exact Hhm. }
  rewrite E. reflexivity.
Qed.

Definition eof_session_state : St :=
  mkSt [] 0 0
    ([] ++ [EvStdout ("Connecting to agent at " ++ "http://localhost:10000" ++ "...");
            EvRich ("[green bold]✅ Connected to " ++ "http://localhost:10000");
            EvStdout "
Enter your query below. Type 'exit' to quit.";
            EvPrompt query_prompt]).

Lemma run_main_error_ends_session_witness :
  markup_error scenario_world ("[green bold]✅ Connected to " ++ "http://localhost:10000")
    = None /\
  inputs (st0 ["Hi"]) = "Hi" :: [] /\
  is_exit (py_strip "Hi") = false /\
  handle_message scenario_world 3 (py_strip "Hi") None None eof_session_state =
    (Raise EOFError, snd (handle_message scenario_world 3 "Hi" None None eof_session_state)) /\
  run_main scenario_world None "http://localhost:10000" 3 (st0 ["Hi"]) =
    (Ok tt, emit (EvStdout failed_msg)
              (emit (EvTraceback EOFError)
                 (snd (handle_message scenario_world 3 "Hi" None None eof_session_state)))).
Proof.
  assert (E : handle_message scenario_world 3 (py_strip "Hi") None None eof_session_state =
    (Raise EOFError, snd (handle_message scenario_world 3 "Hi" None None eof_session_state)))
    by (vm_compute; reflexivity).
  assert (Hm : markup_error scenario_world
                 ("[green bold]✅ Connected to " ++ "http://localhost:10000") = None)
    by (vm_compute; reflexivity).
  split; [exact Hm|]. split; [reflexivity|]. split; [reflexivity|]. split; [exact E|].
  exact (run_main_error_ends_session scenario_world "http://localhost:10000" 2 (st0 ["Hi"])
           "Hi" [] EOFError _ Hm eq_refl eq_refl E).
Defined.

(** The follow-up to an "input-required" task is submitted right after the
    prompt, as a user message whose only part is the operator's line and
    which carries the task's id and context id (when these are non-empty). *)
Theorem follow_up_submission_carries_task_ids
    (w : World) (f : nat) (t : Task) (u : Update) (rest : list Item) (c : nat)
    (s : St) (d : string * string) (line : string) (more : list string)
    (r : res nat) (s' : St) :
  task_status_state t = input_required ->
  task_id t <> "" -> task_context_id t <> "" ->
  model_dump_pair w t u = inr d ->
  inputs s = line :: more ->
  drain w (handle_message w (S f)) (ItemTaskUpdate t u :: rest) c s = (r, s') ->
  exists m new,
    out s' = out s ++ EvStdout "
=== Streaming Update ===" :: pjr_events w (PDict (fst d) (snd d))
                   ++ EvPrompt input_prompt :: EvSend m :: new /\
    role m = user /\ parts m = [mkPart "text" line] /\
    taskId m = Some (task_id t) /\ contextId m = Some (task_context_id t).
Proof.
  intros Hst Hid Hctx Hd Hin H.
  set (s2 := mkSt more (uuid_ctr s) (sent s)
               (out s ++ EvStdout "
=== Streaming Update ===" :: pjr_events w (PDict (fst d) (snd d))
                      ++ [EvPrompt input_prompt])).
  assert (E : drain w (handle_message w (S f)) (ItemTaskUpdate t u :: rest) c s =
              bind (handle_message w (S f) line (Some (task_id t)) (Some (task_context_id t)))
                (fun _ => drain w (handle_message w (S f)) rest (S c)) s2).
  { simpl. unfold process_item, bind at 1 2. rewrite Hd. simpl.
    unfold bind at 1. rewrite print_json_response_eq by reflexivity. rewrite Hst. simpl.
    unfold bind at 1, input, emit. simpl. rewrite Hin. simpl.
    rewrite <- app_assoc. reflexivity. }
  rewrite E in H. clear E.
  exists (built_message w line (Some (task_id t)) (Some (task_context_id t)) s2).
  unfold bind in H.
  destruct (handle_message w (S f) line (Some (task_id t)) (Some (task_context_id t)) s2)
    as [r1 s3] eqn:E3.
  destruct (handle_message_first_send w f _ _ _ s2 s3 r1 E3) as [new1 Ho3].
  assert (Hs : steps s3 s').
  { destruct r1 as [a|e|]; [|inversion H; subst; apply steps_refl
                            |inversion H; subst; apply steps_refl].
    eapply good_drain; [apply good_handle_message | exact H]. }
  destruct Hs as (new2 & _ & Ho' & _).
  exists (new1 ++ new2). split.
  - rewrite Ho', Ho3. unfold s2. simpl. rewrite <- !app_assoc. simpl.
    try rewrite <- !app_assoc. reflexivity.
  - unfold built_message, py_truthy. simpl.
    apply String.eqb_neq in Hid, Hctx. rewrite Hid, Hctx.
    repeat split.
Qed.

Lemma follow_up_submission_carries_task_ids_witness :
  task_status_state t1_waiting = input_required /\
  task_id t1_waiting <> "" /\ task_context_id t1_waiting <> "" /\
  model_dump_pair scenario_world t1_waiting "working" = inr ("t1", "working") /\
  inputs (mkSt ["continue"] 0 1 []) = "continue" :: [] /\
  drain scenario_world (handle_message scenario_world 3)
    [ItemTaskUpdate t1_waiting "working"] 0 (mkSt ["continue"] 0 1 []) =
    (fst (drain scenario_world (handle_message scenario_world 3)
            [ItemTaskUpdate t1_waiting "working"] 0 (mkSt ["continue"] 0 1 [])),
     snd (drain scenario_world (handle_message scenario_world 3)
            [ItemTaskUpdate t1_waiting "working"] 0 (mkSt ["continue"] 0 1 []))) /\
  exists m new,
    out (snd (drain scenario_world (handle_message scenario_world 3)
            [ItemTaskUpdate t1_waiting "working"] 0 (mkSt ["continue"] 0 1 []))) =
      out (mkSt ["continue"] 0 1 []) ++ EvStdout "
=== Streaming Update ===" :: pjr_events scenario_world (PDict "t1" "working")
                   ++ EvPrompt input_prompt :: EvSend m :: new /\
    role m = user /\ parts m = [mkPart "text" "continue"] /\
    taskId m = Some "t1" /\ contextId m = Some "c1".
Proof.
  split; [reflexivity|]. split; [discriminate|]. split; [discriminate|].
  split; [reflexivity|]. split; [reflexivity|]. split; [reflexivity|].
  exact (follow_up_submission_carries_task_ids scenario_world 2 t1_waiting "working" [] 0
           (mkSt ["continue"] 0 1 []) ("t1", "working") "continue" [] _ _
           eq_refl ltac:(discriminate) ltac:(discriminate) eq_refl eq_refl eq_refl).
Defined.

(** The message of [simple_test]: a user text message without task or
    context id. *)
Definition simple_test_message (w : World) (s : St) : Message :=
  mkMessage user [mkPart "text" "What time is it?"] (uuid4_hex w (uuid_ctr s)) None None.

(** [simple_test] submits one message with no task or context id and
    reports only the first item yielded: the rest of the sequence, and how
    it would end, are never looked at. *)
Theorem simple_test_first_item_only (w : World) (ty str : Item -> string) (s : St)
    (item : Item) (rest : list Item) (e_end : option exn) :
  send_message_resp w (sent s) (simple_test_message w s) = mkStream (item :: rest) e_end ->
  simple_test w None ty str s =
  (Ok tt, mkSt (inputs s) (S (uuid_ctr s)) (S (sent s))
            (out s ++ [EvStdout "Connecting to agent...";
                       EvStdout "Creating message...";
                       EvStdout "Sending message...";
                       EvSend (simple_test_message w s);
                       EvStdout ("Received item type: " ++ ty item);
                       EvStdout ("Received item: " ++ str item)])).
Proof.
  intros Hresp.
  unfold simple_test, simple_test_body. erewrite bind_ok; [|reflexivity]. unfold try_except.
  erewrite bind_ok; [|reflexivity]. erewrite bind_ok; [|reflexivity].
  erewrite bind_ok; [|reflexivity]. cbv beta zeta.
  erewrite bind_ok; [|reflexivity].
  erewrite bind_ok; [|reflexivity]. unfold emit. cbn [sent uuid_ctr inputs out].
  unfold simple_test_message in Hresp.
  rewrite Hresp. simpl. unfold bind, print, emit. simpl.
  rewrite <- !app_assoc. reflexivity.
Qed.

Definition one_shot_world : World :=
  mkWorld (fun _ => "uuid")
    (fun _ _ => mkStream [ItemMessage "It is noon."; ItemMessage "never shown"]
                  (Some (OtherError "httpx.ReadError" "connection reset")))
    (fun t u => inr (task_id t, u)) (fun p => "json") (fun p => "repr")
    (fun x => py_lower (py_strip x)) (fun _ => None).

Lemma simple_test_first_item_only_witness :
  send_message_resp one_shot_world 0 (simple_test_message one_shot_world (st0 [])) =
    mkStream [ItemMessage "It is noon."; ItemMessage "never shown"]
      (Some (OtherError "httpx.ReadError" "connection reset")) /\
  simple_test one_shot_world None (fun _ => "Message") (fun _ => "reply") (st0 []) =
  (Ok tt, mkSt [] 1 1
            ([] ++ [EvStdout "Connecting to agent...";
                    EvStdout "Creating message...";
                    EvStdout "Sending message...";
                    EvSend (simple_test_message one_shot_world (st0 []));
                    EvStdout ("Received item type: " ++ "Message");
                    EvStdout ("Received item: " ++ "reply")])).
Proof.
  split; [reflexivity|].
  exact (simple_test_first_item_only one_shot_world (fun _ => "Message") (fun _ => "reply")
           (st0 []) (ItemMessage "It is noon.") [ItemMessage "never shown"]
           (Some (OtherError "httpx.ReadError" "connection reset")) eq_refl).
Defined.

(** [simple_test] never lets an exception escape; when its [try] body
    (connecting, building, sending, reading the first item) raises, it
    prints "Error: " with the exception's message, then the traceback, and
    returns. *)
Theorem simple_test_never_raises (w : World) (c : option exn) (ty str : Item -> string)
    (s : St) :
  (forall e, fst (simple_test w c ty str s) <> Raise e) /\
  (forall e s1,
     simple_test_body w c ty str (emit (EvStdout "Connecting to agent...") s) = (Raise e, s1) ->
     simple_test w c ty str s =
     (Ok tt, emit (EvTraceback e) (emit (EvStdout ("Error: " ++ exn_str e)) s1))).
Proof.
  split.
  - intros e.
    unfold simple_test, bind at 1, print at 1. cbv beta iota zeta.
    apply try_except_no_raise. intros e' s'.
    unfold bind, traceback_print_exc, print. simpl. discriminate.
  - intros e s1 H.
    unfold simple_test. erewrite bind_ok; [|reflexivity].
    unfold try_except. rewrite H. reflexivity.
Qed.

Lemma simple_test_never_raises_witness :
  simple_test_body scenario_world
    (Some (OtherError "httpx.ConnectError" "All connection attempts failed"))
    (fun _ => "Message") (fun _ => "reply")
    (emit (EvStdout "Connecting to agent...") (st0 [])) =
    (Raise (OtherError "httpx.ConnectError" "All connection attempts failed"),
     emit (EvStdout "Connecting to agent...") (st0 [])) /\
  simple_test scenario_world
    (Some (OtherError "httpx.ConnectError" "All connection attempts failed"))
    (fun _ => "Message") (fun _ => "reply") (st0 []) =
  (Ok tt, emit (EvTraceback (OtherError "httpx.ConnectError" "All connection attempts failed"))
            (emit (EvStdout ("Error: " ++ "All connection attempts failed"))
               (emit (EvStdout "Connecting to agent...") (st0 [])))).
Proof.
  assert (E : simple_test_body scenario_world
    (Some (OtherError "httpx.ConnectError" "All connection attempts failed"))
    (fun _ => "Message") (fun _ => "reply")
    (emit (EvStdout "Connecting to agent...") (st0 [])) =
    (Raise (OtherError "httpx.ConnectError" "All connection attempts failed"),
     emit (EvStdout "Connecting to agent...") (st0 []))) by reflexivity.
  split; [exact E|].
  exact (proj2 (simple_test_never_raises scenario_world
                  (Some (OtherError "httpx.ConnectError" "All connection attempts failed"))
                  (fun _ => "Message") (fun _ => "reply") (st0 []))
           _ _ E).
Defined.
